(** * date-helper: the DateHelper class over a model of the host's Date

    The library wraps the host runtime's [Date].  The development embeds
    - the numbers and strings the code coerces, compares and prints,
    - the calendar algorithms of the host's [Date] (ECMA-262, "Date Objects"),
    - [constants.ts], [utils.ts], [error.ts], [types.ts] and the [DateHelper]
      class of [index.ts],
    and proves the properties stated for them.

    Conventions.  A time value is an integer count of milliseconds or NaN.
    Integers are unbounded, where the host's are exact below 2^53: the one
    computation of the class that leaves that range, the difference of two
    time values and its quotient, is rounded to binary64 as the host does.
    The sign of zero is not modelled.  A host has one local zone with one
    constant offset from UTC: a zone that changes its offset (daylight
    saving, a moved date line) is outside the model, and a property of local
    time is proved for the hosts of the model only. *)

From Stdlib Require Import Ascii String ZArith Lia QArith Qabs Qround DecimalString.
From stdpp Require Import gmap strings list.

Open Scope Z_scope.

(** ** Numbers *)

(** A number of the host: NaN, an integer, a finite value that is not an
    integer, or an infinity. *)
Inductive number : Type :=
  | NaN
  | Int (z : Z)
  | Frac (q : Q)
  | Infinity (negative : bool).

Definition isNaN (n : number) : bool :=
  match n with NaN => true | _ => false end.

(** The order of two numbers; [None] when one of them is NaN. *)
Definition num_compare (a b : number) : option comparison :=
  match a, b with
  | NaN, _ | _, NaN => None
  | Infinity x, Infinity y =>
      Some (match x, y with true, false => Lt | false, true => Gt | _, _ => Eq end)
  | Infinity x, _ => Some (if x then Lt else Gt)
  | _, Infinity y => Some (if y then Gt else Lt)
  | Int x, Int y => Some (x ?= y)
  | Int x, Frac q => Some (Qcompare (inject_Z x) q)
  | Frac q, Int y => Some (Qcompare q (inject_Z y))
  | Frac p, Frac q => Some (Qcompare p q)
  end.

(** [a < b], [a > b], [a >= b] and [a === b]: false as soon as one side is NaN. *)
Definition num_lt (a b : number) : bool :=
  match num_compare a b with Some Lt => true | _ => false end.
Definition num_gt (a b : number) : bool :=
  match num_compare a b with Some Gt => true | _ => false end.
Definition num_ge (a b : number) : bool :=
  match num_compare a b with Some Gt | Some Eq => true | _ => false end.
Definition num_eq (a b : number) : bool :=
  match num_compare a b with Some Eq => true | _ => false end.

(** A rational as a number: an integer when its reduced denominator is 1. *)
Definition of_Q (q : Q) : number :=
  let r := Qred q in
  if (Qden r =? 1)%positive then Int (Qnum r) else Frac r.

(** Truncation toward zero of a rational. *)
Definition Qtrunc (q : Q) : Z := Z.quot (Qnum q) (Z.pos (Qden q)).

(** The integer part of a finite number (ToIntegerOrInfinity behind a
    finiteness test); [None] for NaN and the infinities. *)
Definition ToInteger (n : number) : option Z :=
  match n with
  | Int z => Some z
  | Frac q => Some (Qtrunc q)
  | NaN | Infinity _ => None
  end.

(** [a + b] and [a - b]. *)
Definition num_plus (a b : number) : number :=
  match a, b with
  | NaN, _ | _, NaN => NaN
  | Infinity x, Infinity y => if Bool.eqb x y then Infinity x else NaN
  | Infinity x, _ => Infinity x
  | _, Infinity y => Infinity y
  | Int x, Int y => Int (x + y)
  | Int x, Frac q => of_Q (inject_Z x + q)
  | Frac p, Int y => of_Q (p + inject_Z y)
  | Frac p, Frac q => of_Q (p + q)
  end.

Definition num_opp (a : number) : number :=
  match a with
  | NaN => NaN
  | Int z => Int (- z)
  | Frac q => Frac (- q)
  | Infinity s => Infinity (negb s)
  end.

Definition num_minus (a b : number) : number := num_plus a (num_opp b).

(** [a * k] for an integer [k]. *)
Definition num_times (a : number) (k : Z) : number :=
  match a with
  | NaN => NaN
  | Int z => Int (z * k)
  | Frac q => of_Q (q * inject_Z k)
  | Infinity s => if k =? 0 then NaN else Infinity (xorb s (k <? 0))
  end.

(** [a % k] for an integer [k]: the remainder has the sign of [a]. *)
Definition num_rem (a : number) (k : Z) : number :=
  if k =? 0 then NaN else
  match a with
  | Int z => Int (Z.rem z k)
  | Frac q => of_Q (q - inject_Z k * inject_Z (Qtrunc (q / inject_Z k)))
  | NaN | Infinity _ => NaN
  end.

(** [Math.floor(a / k)] for a positive integer [k]. *)
Definition Math_floor_div (a : number) (k : Z) : number :=
  match a with
  | Int z => Int (z / k)
  | Frac q => Int (Qfloor (q / inject_Z k))
  | NaN => NaN
  | Infinity s => Infinity s
  end.

(** [Math.round(a)]: the nearest integer, a tie going toward +Infinity, that
    is floor(a + 1/2). *)
Definition Math_round (a : number) : number :=
  match a with
  | Int z => Int z
  | Frac q => Int (Qfloor (q + (1 # 2)))
  | NaN => NaN
  | Infinity s => Infinity s
  end.

(** *** Rounding to binary64

    The host's numbers are binary64 doubles: a result that is not a double is
    rounded to the nearest one, a tie going to the even significand.  The
    class computes with integers below 2^53, where the arithmetic above is
    exact, but for the difference of two time values, which can reach 2^54,
    and its quotient by 60000.  The two are rounded here as the host rounds
    them (the exponent range, far from these values, is left out). *)

(** The integer nearest to [n / d], for [d > 0], a tie going to the even
    one. *)
Definition nearest_even (n d : Z) : Z :=
  let q := n / d in
  let r := n mod d in
  if 2 * r <? d then q
  else if d <? 2 * r then q + 1
  else if Z.even q then q else q + 1.

(** The binade of [n / d], for [n <> 0] and [d > 0]: the [e] with
    [2^e <= |n| / d < 2^(e+1)]. *)
Definition binade (n d : Z) : Z :=
  let k := Z.log2 (Z.abs n) - Z.log2 d in
  if (if 0 <=? k then 2 ^ k * d <=? Z.abs n else d <=? 2 ^ (- k) * Z.abs n)
  then k else k - 1.

(** The double nearest to [n / d], for [d > 0]: 53 significant bits. *)
Definition to_double (n d : Z) : Q :=
  if n =? 0 then 0%Q else
  let s := 52 - binade n d in
  if 0 <=? s then nearest_even (n * 2 ^ s) d # Z.to_pos (2 ^ s)
  else inject_Z (nearest_even n (d * 2 ^ (- s)) * 2 ^ (- s)).

(** [a - b] where [a] and [b] are integers as far apart as 2^53 or more. *)
Definition double_minus (a b : number) : number :=
  match a, b with
  | Int x, Int y => of_Q (to_double (x - y) 1)
  | _, _ => num_minus a b
  end.

(** [a / k] for an integer [a] and a positive integer [k]. *)
Definition double_div (a : number) (k : Z) : number :=
  match a with
  | Int z => of_Q (to_double z k)
  | Frac q => of_Q (to_double (Qnum q) (Z.pos (Qden q) * k))
  | NaN => NaN
  | Infinity s => Infinity s
  end.

(** Truthiness of a number: 0 and NaN are falsy. *)
Definition truthy (n : number) : bool :=
  match n with
  | NaN | Int 0 => false
  | _ => true
  end.

(** ** Strings *)

Definition digit_of (c : ascii) : option Z :=
  let n := Z.of_N (N_of_ascii c) in
  if (48 <=? n) && (n <=? 57) then Some (n - 48) else None.

Fixpoint digits_value (acc : Z) (s : string) : option Z :=
  match s with
  | EmptyString => Some acc
  | String c s' =>
      match digit_of c with
      | Some d => digits_value (10 * acc + d) s'
      | None => None
      end
  end.

(** The value of a non-empty string of decimal digits. *)
Definition DecimalDigits (s : string) : option Z :=
  match s with
  | EmptyString => None
  | _ => digits_value 0 s
  end.

(** The decimal form of an integer, with a leading "-" when negative. *)
Definition decimal (z : Z) : string := NilZero.string_of_int (Z.to_int z).

(** [s.split(sep)] for a one-character separator: never empty. *)
Fixpoint split (sep : ascii) (s : string) : list string :=
  match s with
  | EmptyString => [EmptyString]
  | String c s' =>
      if Ascii.eqb c sep then EmptyString :: split sep s'
      else match split sep s' with
           | x :: xs => String c x :: xs
           | [] => [String c EmptyString]
           end
  end.

(** ** The host *)

(** What the runtime decides and the library does not: the local zone, as
    one constant offset from UTC in minutes, the numeric value of a string that is neither a plain run of digits nor
    plainly not a number, the text of a number that is not a small integer,
    and the date strings outside the one format the code's own tests use. *)
Record Host : Type := {
  tzMinutes : Z;
  StringToNumber_host : string -> number;
  NumberToString_host : number -> string;
  Date_parse_host : string -> number;
}.

(** A character that no numeric literal has: the colon, and the letters
    other than those of "Infinity", of the hexadecimal digits and of the marks
    x, o, b and e. *)
Definition never_numeric (c : ascii) : bool :=
  existsb (Ascii.eqb c)
    (list_ascii_of_string "ghjklmpqrsuvwzGHJKLMNPQRSTUVWYZ:").

Fixpoint string_exists (p : ascii -> bool) (s : string) : bool :=
  match s with
  | EmptyString => false
  | String c s' => p c || string_exists p s'
  end.

(** [+s] for a string [s]: 0 for the empty string, the value of a run of
    digits, NaN when a character rules a number out, and the host's reading of
    anything else. *)
Definition StringToNumber (H : Host) (s : string) : number :=
  match s with
  | EmptyString => Int 0
  | _ =>
      match DecimalDigits s with
      | Some z => Int z
      | None =>
          if string_exists never_numeric s then NaN else StringToNumber_host H s
      end
  end.

(** [`${n}`] for a number [n]: decimal digits for an integer below 10^21. *)
Definition NumberToString (H : Host) (n : number) : string :=
  match n with
  | NaN => "NaN"
  | Int z => if Z.abs z <? 10 ^ 21 then decimal z else NumberToString_host H n
  | Frac _ => NumberToString_host H n
  | Infinity s => if s then "-Infinity" else "Infinity"
  end.

(** A value of type [number | string]. *)
Inductive value : Type :=
  | VNum (n : number)
  | VStr (s : string).

Definition ToNumber (H : Host) (v : value) : number :=
  match v with
  | VNum n => n
  | VStr s => StringToNumber H s
  end.

Definition ToString (H : Host) (v : value) : string :=
  match v with
  | VNum n => NumberToString H n
  | VStr s => s
  end.

(** ** The host's Date: calendar algorithms (ECMA-262) *)

Module ES.

Definition msPerSecond : Z := 1000.
Definition msPerMinute : Z := 60000.
Definition msPerHour : Z := 3600000.
Definition msPerDay : Z := 86400000.
Definition maxTime : Z := 8640000000000000.

Definition Day (t : Z) : Z := t / msPerDay.
Definition TimeWithinDay (t : Z) : Z := t mod msPerDay.

Definition DaysInYear (y : Z) : Z :=
  if negb (y mod 4 =? 0) then 365
  else if negb (y mod 100 =? 0) then 366
  else if negb (y mod 400 =? 0) then 365
  else 366.

Definition DayFromYear (y : Z) : Z :=
  365 * (y - 1970) + (y - 1969) / 4 - (y - 1901) / 100 + (y - 1601) / 400.

(** The year of a day number: the largest [y] with [DayFromYear y <= d]
    (lemma [YearFromDay_unique]), found from the mean year length of 146097/400
    days and one step of correction. *)
Definition YearFromDay (d : Z) : Z :=
  let y := 1970 + (400 * d) / 146097 in
  if d <? DayFromYear y then y - 1
  else if DayFromYear (y + 1) <=? d then y + 1
  else y.

Definition YearFromTime (t : Z) : Z := YearFromDay (Day t).

Definition InLeapYear (t : Z) : Z :=
  if DaysInYear (YearFromTime t) =? 366 then 1 else 0.

Definition DayWithinYear (t : Z) : Z := Day t - DayFromYear (YearFromTime t).

(** The day within the year on which month [m] (0 to 11) starts. *)
Definition monthStart (m leap : Z) : Z :=
  match m with
  | 0 => 0
  | 1 => 31
  | 2 => 59 + leap
  | 3 => 90 + leap
  | 4 => 120 + leap
  | 5 => 151 + leap
  | 6 => 181 + leap
  | 7 => 212 + leap
  | 8 => 243 + leap
  | 9 => 273 + leap
  | 10 => 304 + leap
  | _ => 334 + leap
  end.

Definition MonthFromTime (t : Z) : Z :=
  let d := DayWithinYear t in
  let leap := InLeapYear t in
  if d <? 31 then 0
  else if d <? 59 + leap then 1
  else if d <? 90 + leap then 2
  else if d <? 120 + leap then 3
  else if d <? 151 + leap then 4
  else if d <? 181 + leap then 5
  else if d <? 212 + leap then 6
  else if d <? 243 + leap then 7
  else if d <? 273 + leap then 8
  else if d <? 304 + leap then 9
  else if d <? 334 + leap then 10
  else 11.

Definition DateFromTime (t : Z) : Z :=
  DayWithinYear t - monthStart (MonthFromTime t) (InLeapYear t) + 1.

Definition HourFromTime (t : Z) : Z := (t / msPerHour) mod 24.
Definition MinFromTime (t : Z) : Z := (t / msPerMinute) mod 60.
Definition SecFromTime (t : Z) : Z := (t / msPerSecond) mod 60.
Definition WeekDay (t : Z) : Z := (Day t + 4) mod 7.

(** The zone's offset in milliseconds, and the two conversions, for a zone
    that never changes its offset. *)
Definition LocalTZA (H : Host) : Z := tzMinutes H * msPerMinute.
Definition LocalTime (H : Host) (t : Z) : Z := t + LocalTZA H.
Definition UTC (H : Host) (t : Z) : Z := t - LocalTZA H.

Definition MakeTime (hour min sec ms : number) : option Z :=
  match ToInteger hour, ToInteger min, ToInteger sec, ToInteger ms with
  | Some h, Some m, Some s, Some milli =>
      Some (h * msPerHour + m * msPerMinute + s * msPerSecond + milli)
  | _, _, _, _ => None
  end.

Definition MakeDay (year month date : number) : option Z :=
  match ToInteger year, ToInteger month, ToInteger date with
  | Some y, Some m, Some dt =>
      let ym := y + m / 12 in
      let mn := m mod 12 in
      let leap := if DaysInYear ym =? 366 then 1 else 0 in
      Some (DayFromYear ym + monthStart mn leap + dt - 1)
  | _, _, _ => None
  end.

Definition MakeDate (day time : option Z) : option Z :=
  match day, time with
  | Some d, Some t => Some (d * msPerDay + t)
  | _, _ => None
  end.

(** A year of one or two digits counts from 1900. *)
Definition MakeFullYear (year : number) : number :=
  match ToInteger year with
  | Some yi => if (0 <=? yi) && (yi <=? 99) then Int (1900 + yi) else year
  | None => year
  end.

Definition TimeClip (time : number) : option Z :=
  match time with
  | Int z => if maxTime <? Z.abs z then None else Some z
  | Frac q =>
      if Qle_bool (Qabs q) (inject_Z maxTime) then Some (Qtrunc q) else None
  | NaN | Infinity _ => None
  end.

End ES.

(** ** The host's Date: the object's operations on its time value *)

Module Date.

(** [new Date(value)] for a number. *)
Definition of_number (v : number) : option Z := ES.TimeClip v.

(** [new Date(year, month, date, hours, minutes)], in local time. *)
Definition of_fields (H : Host) (year month date hours minutes : number)
  : option Z :=
  let yr := ES.MakeFullYear year in
  match ES.MakeDate (ES.MakeDay yr month date)
                    (ES.MakeTime hours minutes (Int 0) (Int 0)) with
  | Some finalDate => ES.TimeClip (Int (ES.UTC H finalDate))
  | None => None
  end.

(** [d.getTime()], which is also [+d]. *)
Definition getTime (d : option Z) : number :=
  match d with Some t => Int t | None => NaN end.

(** A getter of a local field: NaN on an invalid date. *)
Definition local_field (H : Host) (f : Z -> Z) (d : option Z) : number :=
  match d with Some t => Int (f (ES.LocalTime H t)) | None => NaN end.

Definition getFullYear (H : Host) := local_field H ES.YearFromTime.
Definition getMonth (H : Host) := local_field H ES.MonthFromTime.
Definition getDate (H : Host) := local_field H ES.DateFromTime.
Definition getHours (H : Host) := local_field H ES.HourFromTime.
Definition getMinutes (H : Host) := local_field H ES.MinFromTime.
Definition getSeconds (H : Host) := local_field H ES.SecFromTime.
Definition getDay (H : Host) := local_field H ES.WeekDay.

(** Minutes from local time to UTC. *)
Definition getTimezoneOffset (H : Host) (d : option Z) : number :=
  match d with Some _ => Int (- tzMinutes H) | None => NaN end.

(** [d.setHours(hour, min, sec, ms)]: the new time value of [d]. *)
Definition setHours (H : Host) (d : option Z) (hour min sec ms : number)
  : option Z :=
  match d with
  | None => None
  | Some t =>
      match ES.MakeDate (Some (ES.Day (ES.LocalTime H t)))
                        (ES.MakeTime hour min sec ms) with
      | Some date => ES.TimeClip (Int (ES.UTC H date))
      | None => None
      end
  end.

(** The fields of a string of the form YYYY-MM-DDTHH:mm:ss. *)
Definition date_time_fields (s : string) : option (Z * Z * Z * Z * Z * Z) :=
  if (String.length s =? 19)%nat
     && String.eqb (substring 4 1 s) "-" && String.eqb (substring 7 1 s) "-"
     && String.eqb (substring 10 1 s) "T"
     && String.eqb (substring 13 1 s) ":" && String.eqb (substring 16 1 s) ":"
  then
    match DecimalDigits (substring 0 4 s), DecimalDigits (substring 5 2 s),
          DecimalDigits (substring 8 2 s), DecimalDigits (substring 11 2 s),
          DecimalDigits (substring 14 2 s), DecimalDigits (substring 17 2 s) with
    | Some y, Some mo, Some d, Some h, Some mi, Some sec =>
        Some (y, mo, d, h, mi, sec)
    | _, _, _, _, _, _ => None
    end
  else None.

(** The length of month [mo] (1 to 12) of year [y]. *)
Definition DaysInMonth (y mo : Z) : Z :=
  if mo =? 2 then (if ES.DaysInYear y =? 366 then 29 else 28)
  else if (mo =? 4) || (mo =? 6) || (mo =? 9) || (mo =? 11) then 30
  else 31.

(** [Date.parse(s)]: a date-time without zone, with every field in range, is
    a local time; any other string is the host's to read. *)
Definition parse (H : Host) (s : string) : number :=
  match date_time_fields s with
  | Some (y, mo, d, h, mi, sec) =>
      if (1 <=? mo) && (mo <=? 12) && (1 <=? d) && (d <=? DaysInMonth y mo)
         && (h <=? 23) && (mi <=? 59) && (sec <=? 59)
      then
        match ES.MakeDate (ES.MakeDay (Int y) (Int (mo - 1)) (Int d))
                          (ES.MakeTime (Int h) (Int mi) (Int sec) (Int 0)) with
        | Some t => getTime (ES.TimeClip (Int (ES.UTC H t)))
        | None => NaN
        end
      else Date_parse_host H s
  | None => Date_parse_host H s
  end.

End Date.

(** ** error.ts *)

(** What is thrown: an [Error], the [FormatError] of error.ts, or the
    host's [ReferenceError] for a name that is not bound. *)
Inductive exception : Type :=
  | Error (message : string)
  | FormatError (message : string)
  | ReferenceError (name : string).

(** [new FormatError(msg, at)], where the class is in scope.  The class is
    declared in error.ts, which exports nothing. *)
Definition new_FormatError (msg at_ : string) : exception :=
  FormatError ("Format error in " +:+ at_ +:+ ":: " +:+ msg).

(** A computation that returns or throws. *)
Definition result (A : Type) : Type := exception + A.

#[global] Instance result_bind : MBind result :=
  fun A B (k : A -> result B) (r : result A) =>
    match r with
    | inl e => inl e
    | inr a => k a
    end.

(** ** types.ts *)

Module Types.

Definition DateTuple : Type := number * number * number.

(** [null] is [None]. *)
Record Time : Type := {
  hour : option number;
  minute : option number;
}.

Record MonthYear : Type := {
  month : number;
  year : number;
}.

Inductive SupportedLanguages : Type := lang_en | lang_th.

(** A partial configuration: an absent field is [None]. *)
Record DateHelperConfig : Type := {
  lang : option SupportedLanguages;
  isUTC : option bool;
  useShortText : option bool;
  useBD : option bool;
  use12HourFormat : option bool;
  showSeconds : option bool;
}.

Definition no_config : DateHelperConfig :=
  {| lang := None; isUTC := None; useShortText := None; useBD := None;
     use12HourFormat := None; showSeconds := None |}.

End Types.

(** ** constants.ts *)

Module Constants.

Record TimeAgo : Type := {
  justNow : string;
  minute : number -> string;
  hour : number -> string;
  day : number -> string;
}.

Record Language : Type := {
  WEEKDAYS_ABBR : list string;
  WEEKDAYS : list string;
  MONTHS_ABBR : list string;
  MONTHS : list string;
  timeAgo : TimeAgo;
}.

(** The plural mark of the English phrases. *)
Definition plural (n : number) : string :=
  if num_gt n (Int 1) then "s" else "".

Definition en (H : Host) : Language := {|
  WEEKDAYS_ABBR := ["Sun"; "Mon"; "Tue"; "Wed"; "Thu"; "Fri"; "Sat"];
  WEEKDAYS := ["Sunday"; "Monday"; "Tuesday"; "Wednesday"; "Thursday";
               "Friday"; "Saturday"];
  MONTHS_ABBR := ["Jan"; "Feb"; "Mar"; "Apr"; "May"; "Jun"; "Jul"; "Aug";
                  "Sep"; "Oct"; "Nov"; "Dec"];
  MONTHS := ["January"; "February"; "March"; "April"; "May"; "June"; "July";
             "August"; "September"; "October"; "November"; "December"];
  timeAgo := {|
    justNow := "Just now";
    minute := fun min => NumberToString H min +:+ " minute" +:+ plural min +:+ " ago";
    hour := fun hours => NumberToString H hours +:+ " hour" +:+ plural hours +:+ " ago";
    day := fun days => NumberToString H days +:+ " day" +:+ plural days +:+ " ago";
  |};
|}.

Definition th (H : Host) : Language := {|
  WEEKDAYS_ABBR := ["อา"; "จ"; "อ"; "พ"; "พฤ"; "ศ"; "ส"];
  WEEKDAYS := ["อาทิตย์"; "จันทร์"; "อังคาร"; "พุธ"; "พฤหัสบดี"; "ศุกร์"; "เสาร์"];
  MONTHS_ABBR := ["ม.ค."; "ก.พ."; "มี.ค."; "เม.ย."; "พ.ค."; "มิ.ย."; "ก.ค."; "ส.ค.";
                  "ก.ย."; "ต.ค."; "พ.ย."; "ธ.ค."];
  MONTHS := ["มกราคม"; "กุมภาพันธ์"; "มีนาคม"; "เมษายน"; "พฤษภาคม"; "มิถุนายน";
             "กรกฎาคม"; "สิงหาคม"; "กันยายน"; "ตุลาคม"; "พฤศจิกายน"; "ธันวาคม"];
  timeAgo := {|
    justNow := "เมื่อสักครู่";
    minute := fun min => NumberToString H min +:+ " นาทีที่แล้ว";
    hour := fun hours => NumberToString H hours +:+ " ชั่วโมงที่แล้ว";
    day := fun days => NumberToString H days +:+ " วันที่ผ่านมา";
  |};
|}.

Definition ONE_DAY_IN_MILLISECONDS : Z := 86400000.

End Constants.

(** ** utils.ts *)

Definition padZero (H : Host) (num : value) : value :=
  if isNaN (ToNumber H num) then num
  else if num_ge (ToNumber H num) (Int 10) then num
  else VStr ("0" +:+ ToString H num).

(** ** index.ts: the DateHelper class *)

(** An instance: its backing Date and its settings.  [D] is how the Date is
    held: by its time value ([option Z], [None] for an invalid Date) where the
    Date is only read, by its address in the store where it is written. *)
Record DateHelperOf (D : Type) : Type := {
  date : D;
  defaultLang : Types.SupportedLanguages;
  useShortText : bool;
  useBD : bool;
  use12HourFormat : bool;
  showSeconds : bool;
}.

Arguments date {D} _.
Arguments defaultLang {D} _.
Arguments useShortText {D} _.
Arguments useBD {D} _.
Arguments use12HourFormat {D} _.
Arguments showSeconds {D} _.

Abbreviation DateHelper := (DateHelperOf (option Z)).

(** [a ?? b] *)
Definition nullish (a : option number) (b : number) : number :=
  match a with Some n => n | None => b end.

(** [l[n]] for an array of strings: [None] is [undefined]. *)
Definition index (l : list string) (n : number) : option string :=
  match n with
  | Int i => if 0 <=? i then l !! Z.to_nat i else None
  | _ => None
  end.

(** An array element inside a template literal. *)
Definition template (s : option string) : string :=
  match s with Some x => x | None => "undefined" end.

(** [a.includes(x)]: NaN is found when present. *)
Definition includes (a : list number) (x : number) : bool :=
  existsb (fun y => num_eq x y || (isNaN x && isNaN y)) a.

(** The constructor.  [now] is the clock's reading.  The call that sets the
    locale of the moment library for Thai does not touch the instance and is
    left out. *)
Definition new_DateHelper (H : Host) (now : Z)
    (dateStringOrNumberInMs : option value) (config : Types.DateHelperConfig)
  : result DateHelper :=
  d ← match dateStringOrNumberInMs with
      | Some v =>
          let ts := ToNumber H v in
          if isNaN ts then
            let parsedDate := Date.parse H (ToString H v) in
            if isNaN parsedDate
            then inl (Error "Invalid date string or number provided.")
            else inr (Date.of_number parsedDate)
          else inr (Date.of_number ts)
      | None => inr (Some now)
      end;
  let d :=
    match Types.isUTC config with
    | Some true =>
        let browserOffset := Date.getTimezoneOffset H (Some now) in
        let offsetInMs := num_times (num_times browserOffset 60) 1000 in
        Date.of_number (num_minus (Date.getTime d) offsetInMs)
    | _ => d
    end in
  inr {| date := d;
         defaultLang := default Types.lang_en (Types.lang config);
         useShortText := default false (Types.useShortText config);
         useBD := default false (Types.useBD config);
         use12HourFormat := default false (Types.use12HourFormat config);
         showSeconds := default false (Types.showSeconds config) |}.

(** [DateHelper.now(config)] *)
Definition now_ (H : Host) (now : Z) (config : Types.DateHelperConfig)
  : result DateHelper :=
  new_DateHelper H now None config.

Definition deltaMinutes (d1 d2 : DateHelper) : number :=
  let dd1 := Date.getTime (date d1) in
  let dd2 := Date.getTime (date d2) in
  let deltaMs := double_minus dd1 dd2 in
  let deltaMin := Math_round (double_div deltaMs 60000) in
  deltaMin.

Definition fromDateTupleAndTime (H : Host) (now : Z)
    (tuple : Types.DateTuple) (time : option Types.Time) : result DateHelper :=
  let '(y, m, d) := tuple in
  let date := Date.of_fields H y (num_minus m (Int 1)) d
                (nullish (time ≫= Types.hour) (Int 0))
                (nullish (time ≫= Types.minute) (Int 0)) in
  new_DateHelper H now (Some (VNum (Date.getTime date))) Types.no_config.

(** The names that index.ts takes from other files, by its import lines:
    none from error.ts. *)
Definition imports : list string :=
  ["moment"; "ONE_DAY_IN_MILLISECONDS"; "constantsEN"; "constantsTH";
   "DateHelperConfig"; "DateTuple"; "MonthYear"; "SupportedLanguages"; "Time";
   "padZero"].

(** What [throw new FormatError(msg, at)] throws inside index.ts.  The name
    is resolved first, before the arguments: index.ts neither declares nor
    imports it, so resolving it throws a ReferenceError and no FormatError is
    built. *)
Definition throw_new_FormatError (msg at_ : string) : exception :=
  if existsb (String.eqb "FormatError") imports
  then new_FormatError msg at_
  else ReferenceError "FormatError".

(** [+x] for an element of a destructured array: [undefined] gives NaN. *)
Definition coerce (H : Host) (x : option string) : number :=
  match x with Some s => StringToNumber H s | None => NaN end.

Definition timeStringToTime (H : Host) (timeString : string)
  : result Types.Time :=
  let fnName := "timeStringToTime" in
  let try : result Types.Time :=
    let parts := split ":" timeString in
    let h := parts !! 0%nat in
    let m := parts !! 1%nat in
    if isNaN (coerce H h) || isNaN (coerce H m) then
      inl (throw_new_FormatError
             ("either hour or time in timeString is NaN [" +:+ timeString +:+ "]")
             fnName)
    else
      let hh := coerce H h in
      let mm := coerce H m in
      if num_lt hh (Int 0) || num_gt hh (Int 23) then
        inl (throw_new_FormatError ("Invalid hour [" +:+ NumberToString H hh +:+ "]") fnName)
      else if num_lt mm (Int 0) || num_gt mm (Int 59) then
        inl (throw_new_FormatError ("Invalid minute [" +:+ NumberToString H mm +:+ "]") fnName)
      else inr {| Types.hour := Some hh; Types.minute := Some mm |} in
  match try with
  | inr time => inr time
  | inl error => inl (throw_new_FormatError ("Invalid time format: " +:+ timeString) fnName)
  end.

Definition timeToTimeString (H : Host) (time : Types.Time) : string :=
  ToString H (padZero H (VNum (nullish (Types.hour time) (Int 0))))
  +:+ ":" +:+
  ToString H (padZero H (VNum (nullish (Types.minute time) (Int 0)))).

Definition getLanguageConstants (H : Host) (self : DateHelper)
  : Constants.Language :=
  match defaultLang self with
  | Types.lang_en => Constants.en H
  | Types.lang_th => Constants.th H
  end.

Definition toDateTuple (H : Host) (self : DateHelper) : Types.DateTuple :=
  (Date.getFullYear H (date self),
   num_plus (Date.getMonth H (date self)) (Int 1),
   Date.getDate H (date self)).

Definition toMs (self : DateHelper) : number := Date.getTime (date self).

Definition getDaysCountInMonth (H : Host) (self : DateHelper) : Z :=
  let '(year, month, _) := toDateTuple H self in
  let monthWith30Days := [Int 4; Int 6; Int 9; Int 11] in
  let isLeapYear :=
    (num_eq (num_rem year 4) (Int 0) && negb (num_eq (num_rem year 100) (Int 0)))
    || num_eq (num_rem year 400) (Int 0) in
  if num_eq month (Int 2) then (if isLeapYear then 29 else 28)
  else if includes monthWith30Days month then 30 else 31.

Definition getBDYear (H : Host) (self : DateHelper) : number :=
  let year := Date.getFullYear H (date self) in
  num_plus year (Int 543).

Definition getADYear (H : Host) (self : DateHelper) : number :=
  let year := Date.getFullYear H (date self) in
  year.

Definition getMonthName (H : Host) (self : DateHelper) : option string :=
  let month := Date.getMonth H (date self) in
  let c := getLanguageConstants H self in
  if useShortText self then index (Constants.MONTHS_ABBR c) month
  else index (Constants.MONTHS c) month.

Definition getDisplayDate (H : Host) (self : DateHelper) : string :=
  let date := Date.getDate H (date self) in
  let year := if useBD self then getBDYear H self else getADYear H self in
  let monthString := getMonthName H self in
  let yearString := if useShortText self then num_rem year 100 else year in
  ToString H (padZero H (VNum date)) +:+ " " +:+ template monthString
  +:+ " " +:+ NumberToString H yearString.

Definition getDisplayTime (H : Host) (self : DateHelper) : string :=
  let hours := Date.getHours H (date self) in
  let minutes := Date.getMinutes H (date self) in
  let seconds := Date.getSeconds H (date self) in
  let period :=
    if negb (use12HourFormat self) then ""
    else if num_ge hours (Int 12) then "PM" else "AM" in
  let hours :=
    if negb (use12HourFormat self) then padZero H (VNum hours)
    else padZero H (VNum (if truthy (num_rem hours 12) then num_rem hours 12
                          else Int 12)) in
  let minutes := padZero H (VNum minutes) in
  let formattedTime := ToString H hours +:+ ":" +:+ ToString H minutes in
  let formattedTime :=
    if showSeconds self
    then formattedTime +:+ ":" +:+ ToString H (padZero H (VNum seconds))
    else formattedTime in
  let formattedTime :=
    if use12HourFormat self then formattedTime +:+ " " +:+ period
    else formattedTime in
  formattedTime.

Definition getDisplayDateAndTime (H : Host) (self : DateHelper) : string :=
  getDisplayDate H self +:+ " " +:+ getDisplayTime H self.

Definition getTimeRelativeToNow (H : Host) (now : Z) (self : DateHelper)
  : result string :=
  now ← new_DateHelper H now None Types.no_config;
  let deltaMinutes := deltaMinutes now self in
  let timeAgo := Constants.timeAgo (getLanguageConstants H self) in
  if num_lt deltaMinutes (Int 1) then inr (Constants.justNow timeAgo)
  else if num_lt deltaMinutes (Int 60) then
    inr (Constants.minute timeAgo deltaMinutes)
  else if num_lt deltaMinutes (Int 1440) then
    let hours := Math_floor_div deltaMinutes 60 in
    inr (Constants.hour timeAgo hours)
  else if num_lt deltaMinutes (Int 43200) then
    let days := Math_floor_div deltaMinutes 1440 in
    inr (Constants.day timeAgo days)
  else inr (getDisplayDate H self).

(** ** The store: Date objects by address

    [getDate] hands out the instance's own Date, and [setHours] writes to
    it; where that matters an instance holds the address of its Date and the
    methods pass the store along. *)

Module Store.

Abbreviation loc := positive.
Abbreviation store := (gmap positive (option Z)).

(** The object of an instance: its Date goes to a fresh address. *)
Definition alloc (d : DateHelper) (σ : store) : DateHelperOf loc * store :=
  let l := fresh (dom σ) in
  ({| date := l;
      defaultLang := defaultLang d;
      useShortText := useShortText d;
      useBD := useBD d;
      use12HourFormat := use12HourFormat d;
      showSeconds := showSeconds d |},
   <[l := date d]> σ).

(** [new DateHelper(input, config)] *)
Definition new_DateHelper (H : Host) (now : Z) (input : option value)
    (config : Types.DateHelperConfig) (σ : store)
  : result (DateHelperOf loc) * store :=
  match new_DateHelper H now input config with
  | inl e => (inl e, σ)
  | inr d => let '(o, σ') := alloc d σ in (inr o, σ')
  end.

(** [getDate]: the Date itself, not a copy. *)
Definition getDate (self : DateHelperOf loc) : loc := date self.

Definition toMs (σ : store) (self : DateHelperOf loc) : number :=
  match σ !! date self with
  | Some d => Date.getTime d
  | None => NaN
  end.

(** [d.setHours(hour, min, sec, ms)] on the Date at [l]. *)
Definition Date_setHours (H : Host) (l : loc) (hour min sec ms : number)
    (σ : store) : store :=
  match σ !! l with
  | Some d => <[l := Date.setHours H d hour min sec ms]> σ
  | None => σ
  end.

(** [date] absent is [DateHelper.now()]. *)
Definition isTimePastForDate (H : Host) (now : Z) (time : Types.Time)
    (date : option (DateHelperOf loc)) (σ : store) : result bool * store :=
  let '(date, σ) :=
    match date with
    | Some d => (inr d, σ)
    | None => new_DateHelper H now None Types.no_config σ
    end in
  match date with
  | inl e => (inl e, σ)
  | inr date =>
      let '(cmp, σ) :=
        new_DateHelper H now (Some (VNum (toMs σ date))) Types.no_config σ in
      match cmp with
      | inl e => (inl e, σ)
      | inr cmp =>
          let σ := Date_setHours H (getDate cmp)
                     (nullish (Types.hour time) (Int 0))
                     (nullish (Types.minute time) (Int 0)) (Int 0) (Int 0) σ in
          (inr (num_gt (Int now) (toMs σ cmp)), σ)
      end
  end.

End Store.

(** ** Vocabulary of the statements *)

(** The instance that [new DateHelper(t)] builds for a time value [t]. *)
Definition instant (t : Z) : DateHelper :=
  {| date := Some t; defaultLang := Types.lang_en; useShortText := false;
     useBD := false; use12HourFormat := false; showSeconds := false |}.

(** A configuration that sets the language and the era, or neither. *)
Definition config_of (l : option Types.SupportedLanguages) (bd : option bool)
  : Types.DateHelperConfig :=
  {| Types.lang := l; Types.isUTC := None; Types.useShortText := None;
     Types.useBD := bd; Types.use12HourFormat := None;
     Types.showSeconds := None |}.

(** The settings of an instance built with [config]. *)
Definition configured (d : option Z) (config : Types.DateHelperConfig)
  : DateHelper :=
  {| date := d;
     defaultLang := default Types.lang_en (Types.lang config);
     useShortText := default false (Types.useShortText config);
     useBD := default false (Types.useBD config);
     use12HourFormat := default false (Types.use12HourFormat config);
     showSeconds := default false (Types.showSeconds config) |}.

(** The time value of local midnight on day [d] of month [m] of year [y]. *)
Definition local_midnight (H : Host) (y m d : Z) : Z :=
  let leap := if ES.DaysInYear y =? 366 then 1 else 0 in
  ES.UTC H ((ES.DayFromYear y + ES.monthStart (m - 1) leap + d - 1) * ES.msPerDay).

(** Divisible by 4 and (not divisible by 100 or divisible by 400). *)
Definition leap_rule (y : Z) : bool :=
  (y mod 4 =? 0) && (negb (y mod 100 =? 0) || (y mod 400 =? 0)).

(** [n] lies in the interval from [lo] to [hi]. *)
Definition between (lo : Z) (n : number) (hi : Z) : bool :=
  num_ge n (Int lo) && num_ge (Int hi) n.

(** The two decimal digits of a number below 100. *)
Definition two_digits (n : Z) : string := decimal (n / 10) +:+ decimal (n mod 10).

(** The hour of a twelve-hour clock: 12 where the remainder is 0. *)
Definition hour12 (h : Z) : Z := if h mod 12 =? 0 then 12 else h mod 12.

Definition is_error {A : Type} (r : result A) : bool :=
  match r with inl _ => true | inr _ => false end.

(** [H] with another reader of date strings. *)
Definition with_parser (H : Host) (p : string -> number) : Host :=
  {| tzMinutes := tzMinutes H;
     StringToNumber_host := StringToNumber_host H;
     NumberToString_host := NumberToString_host H;
     Date_parse_host := p |}.

(** The host [H] with its zone moved to [minutes] ahead of UTC. *)
Definition with_zone (minutes : Z) (H : Host) : Host :=
  {| tzMinutes := minutes;
     StringToNumber_host := StringToNumber_host H;
     NumberToString_host := NumberToString_host H;
     Date_parse_host := Date_parse_host H |}.

(** A host for the examples: the zone of Bangkok, seven hours ahead of UTC.
    No example reaches its three readers, which answer NaN and "?". *)
Definition bangkok : Host :=
  {| tzMinutes := 420;
     StringToNumber_host := fun _ => NaN;
     NumberToString_host := fun _ => "?";
     Date_parse_host := fun _ => NaN |}.

(** * Properties *)

(** ** Calendar arithmetic *)

Ltac case_bool :=
  repeat match goal with
  | |- context [?a <? ?b] => destruct (Z.ltb_spec a b)
  | |- context [?a <=? ?b] => destruct (Z.leb_spec a b)
  | |- context [?a =? ?b] => destruct (Z.eqb_spec a b)
  end; simpl.

Ltac div_lia := Z.div_mod_to_equations; lia.

Lemma DayFromYear_succ y :
  ES.DayFromYear (y + 1) = ES.DayFromYear y + ES.DaysInYear y.
Proof. unfold ES.DayFromYear, ES.DaysInYear. case_bool; div_lia. Qed.

Lemma DayFromYear_mono y1 y2 :
  y1 <= y2 -> ES.DayFromYear y1 <= ES.DayFromYear y2.
Proof. unfold ES.DayFromYear. intros. div_lia. Qed.

Lemma YearFromDay_spec d :
  ES.DayFromYear (ES.YearFromDay d) <= d < ES.DayFromYear (ES.YearFromDay d + 1).
Proof.
  unfold ES.YearFromDay. cbv zeta. case_bool; unfold ES.DayFromYear in *; div_lia.
Qed.

(** [YearFromDay d] is the one year whose days include [d]. *)
Lemma YearFromDay_unique d y :
  ES.DayFromYear y <= d < ES.DayFromYear (y + 1) -> ES.YearFromDay d = y.
Proof.
  intros Hy. pose proof (YearFromDay_spec d) as Hs.
  destruct (Z.lt_trichotomy (ES.YearFromDay d) y) as [Hlt | [Heq | Hgt]]; [|done|].
  - pose proof (DayFromYear_mono (ES.YearFromDay d + 1) y ltac:(lia)). lia.
  - pose proof (DayFromYear_mono (y + 1) (ES.YearFromDay d) ltac:(lia)). lia.
Qed.

(** Known dates: the epoch was a Thursday; 29 February 2000 and
    31 December 1969 just before the epoch; the last day a Date can hold. *)
Lemma calendar_examples :
  (ES.YearFromTime 0, ES.MonthFromTime 0, ES.DateFromTime 0, ES.WeekDay 0)
  = (1970, 0, 1, 4)
  /\ (ES.YearFromTime 951782400000, ES.MonthFromTime 951782400000,
      ES.DateFromTime 951782400000) = (2000, 1, 29)
  /\ (ES.YearFromTime (-1), ES.MonthFromTime (-1), ES.DateFromTime (-1),
      ES.HourFromTime (-1), ES.MinFromTime (-1), ES.SecFromTime (-1))
     = (1969, 11, 31, 23, 59, 59)
  /\ (ES.YearFromTime ES.maxTime, ES.MonthFromTime ES.maxTime,
      ES.DateFromTime ES.maxTime) = (275760, 8, 13).
Proof. repeat split; vm_compute; reflexivity. Qed.

Lemma DaysInYear_cases y : ES.DaysInYear y = 365 \/ ES.DaysInYear y = 366.
Proof. unfold ES.DaysInYear. case_bool; auto. Qed.

Lemma Day_of_day_and_time d r :
  0 <= r < ES.msPerDay -> ES.Day (d * ES.msPerDay + r) = d.
Proof. unfold ES.Day, ES.msPerDay. intros. div_lia. Qed.

(** The fields of the day that [MakeDay] builds: month [mo] (0 to 11) of
    year [y], day [dt] of the month, at [r] milliseconds into the day. *)
Lemma fields_of_MakeDay y mo dt r :
  0 <= mo <= 11 -> 1 <= dt <= Date.DaysInMonth y (mo + 1) ->
  0 <= r < ES.msPerDay ->
  let leap := if ES.DaysInYear y =? 366 then 1 else 0 in
  let t := (ES.DayFromYear y + ES.monthStart mo leap + dt - 1) * ES.msPerDay + r in
  ES.YearFromTime t = y /\ ES.MonthFromTime t = mo /\ ES.DateFromTime t = dt.
Proof.
  intros Hmo Hdt Hr leap t.
  assert (Hday : ES.Day t = ES.DayFromYear y + ES.monthStart mo leap + dt - 1)
    by (apply Day_of_day_and_time; done).
  assert (Hm : mo = 0 \/ mo = 1 \/ mo = 2 \/ mo = 3 \/ mo = 4 \/ mo = 5 \/ mo = 6
               \/ mo = 7 \/ mo = 8 \/ mo = 9 \/ mo = 10 \/ mo = 11) by lia.
  assert (Hleap : leap = ES.DaysInYear y - 365).
  { subst leap. destruct (DaysInYear_cases y) as [-> | ->]; reflexivity. }
  assert (Hyear : ES.YearFromTime t = y).
  { unfold ES.YearFromTime. rewrite Hday. apply YearFromDay_unique.
    rewrite DayFromYear_succ. unfold Date.DaysInMonth in Hdt. fold leap in Hdt.
    destruct (DaysInYear_cases y) as [Hy | Hy]; rewrite Hy in *; subst leap;
      simpl in *;
      repeat destruct Hm as [-> | Hm]; try subst mo; simpl in *; lia. }
  assert (Hwithin : ES.DayWithinYear t = ES.monthStart mo leap + dt - 1).
  { unfold ES.DayWithinYear. rewrite Hday, Hyear. lia. }
  assert (Hin : ES.InLeapYear t = leap).
  { unfold ES.InLeapYear. rewrite Hyear. reflexivity. }
  assert (Hmonth : ES.MonthFromTime t = mo).
  { unfold ES.MonthFromTime. rewrite Hwithin, Hin. cbv zeta.
    unfold Date.DaysInMonth in Hdt. fold leap in Hdt.
    destruct (DaysInYear_cases y) as [Hy | Hy]; rewrite Hy in *; subst leap;
      simpl in *;
      repeat destruct Hm as [-> | Hm]; try subst mo; simpl in *;
      case_bool; lia. }
  split; [done|]. split; [done|].
  unfold ES.DateFromTime. rewrite Hwithin, Hmonth, Hin. lia.
Qed.

(** ** Numbers and strings *)

Lemma num_eq_Int a b : num_eq (Int a) (Int b) = (a =? b).
Proof. unfold num_eq, num_compare. rewrite Z.eqb_compare. reflexivity. Qed.

Lemma num_lt_Int a b : num_lt (Int a) (Int b) = (a <? b).
Proof. unfold num_lt, num_compare. rewrite Z.ltb_compare. reflexivity. Qed.

Lemma num_gt_Int a b : num_gt (Int a) (Int b) = (b <? a).
Proof.
  unfold num_gt, num_compare. rewrite Z.ltb_antisym, Z.leb_compare.
  destruct (a ?= b); reflexivity.
Qed.

Lemma num_ge_Int a b : num_ge (Int a) (Int b) = (b <=? a).
Proof.
  unfold num_ge, num_compare. rewrite Z.leb_antisym, Z.ltb_compare.
  destruct (a ?= b); reflexivity.
Qed.

(** The order is total away from NaN. *)
Lemma num_compare_antisym a b :
  num_compare b a = CompOpp <$> num_compare a b.
Proof.
  destruct a as [|x|p|[]], b as [|y|q|[]]; simpl; try reflexivity.
  - f_equal. apply Z.compare_antisym.
  - f_equal. symmetry. apply Qcompare_antisym.
  - f_equal. symmetry. apply Qcompare_antisym.
  - f_equal. symmetry. apply Qcompare_antisym.
Qed.

Lemma num_compare_is_Some a b :
  isNaN a = false -> isNaN b = false -> is_Some (num_compare a b).
Proof. destruct a as [|x|p|[]], b as [|y|q|[]]; simpl; intros; try done; eauto. Qed.

Lemma out_of_range n lo hi :
  isNaN n = false ->
  num_lt n (Int lo) || num_gt n (Int hi) = negb (between lo n hi).
Proof.
  intros Hn. unfold between, num_lt, num_gt, num_ge.
  rewrite (num_compare_antisym n (Int hi)).
  destruct (num_compare_is_Some n (Int lo) Hn eq_refl) as [c1 ->].
  destruct (num_compare_is_Some n (Int hi) Hn eq_refl) as [c2 ->].
  destruct c1, c2; reflexivity.
Qed.

Lemma append_assoc (a b c : string) : (a +:+ b) +:+ c = a +:+ b +:+ c.
Proof.
  induction a as [|x a IH]; [reflexivity|].
  change (String x ((a +:+ b) +:+ c) = String x (a +:+ b +:+ c)). by rewrite IH.
Qed.

Lemma append_empty_r (a : string) : a +:+ "" = a.
Proof.
  induction a as [|x a IH]; [reflexivity|].
  change (String x (a +:+ "") = String x a). by rewrite IH.
Qed.

Lemma length_append (a s : string) :
  String.length (a +:+ s) = (String.length a + String.length s)%nat.
Proof.
  induction a as [|x a IH]; [reflexivity|].
  change (S (String.length (a +:+ s)) = S (String.length a + String.length s)).
  by rewrite IH.
Qed.

Lemma append_neq (a s : string) : a <> "" -> a +:+ s <> s.
Proof.
  intros Ha Heq. apply (f_equal String.length) in Heq.
  rewrite length_append in Heq. destruct a; [done|]. simpl in Heq. lia.
Qed.

(** ** Local time *)

Section Zone.

Variable H : Host.

(** The zone is less than a day from UTC. *)
Hypothesis Hzone : -1440 < tzMinutes H < 1440.

Lemma LocalTime_UTC t : ES.LocalTime H (ES.UTC H t) = t.
Proof. unfold ES.LocalTime, ES.UTC. lia. Qed.

Lemma TimeClip_UTC t :
  Z.abs t <= ES.maxTime - ES.msPerDay ->
  ES.TimeClip (Int (ES.UTC H t)) = Some (ES.UTC H t).
Proof using Hzone.
  unfold ES.TimeClip, ES.UTC, ES.LocalTZA, ES.maxTime, ES.msPerDay, ES.msPerMinute.
  intros. case_bool; [lia | done].
Qed.

Lemma DayFromYear_range y :
  -271820 <= y <= 275759 ->
  -99999744 <= ES.DayFromYear y /\ ES.DayFromYear (y + 1) <= 99999744.
Proof. unfold ES.DayFromYear. intros. div_lia. Qed.

Lemma new_DateHelper_of_time now t :
  Z.abs t <= ES.maxTime ->
  new_DateHelper H now (Some (VNum (Int t))) Types.no_config = inr (instant t).
Proof.
  intros Ht. unfold new_DateHelper. simpl.
  unfold ES.maxTime in *. case_bool; [lia | done].
Qed.

(** The Date built from the fields of a day, once the year [y] given has
    become the full year [yr]: its local fields are those given. *)
Lemma of_fields_local y yr mo dt :
  ES.MakeFullYear (Int y) = Int yr ->
  -271820 <= yr <= 275759 ->
  0 <= mo <= 11 -> 1 <= dt <= Date.DaysInMonth yr (mo + 1) ->
  exists t, Date.of_fields H (Int y) (Int mo) (Int dt) (Int 0) (Int 0) = Some t
    /\ Z.abs t <= ES.maxTime
    /\ ES.YearFromTime (ES.LocalTime H t) = yr
    /\ ES.MonthFromTime (ES.LocalTime H t) = mo
    /\ ES.DateFromTime (ES.LocalTime H t) = dt.
Proof using Hzone.
  intros Hfull Hy Hmo Hdt.
  pose proof (fields_of_MakeDay yr mo dt 0 Hmo Hdt
                ltac:(unfold ES.msPerDay; lia)) as Hf.
  cbv zeta in Hf.
  set (day := ES.DayFromYear yr
              + ES.monthStart mo (if ES.DaysInYear yr =? 366 then 1 else 0)
              + dt - 1) in *.
  assert (Hday : -99999744 <= day <= 99999744).
  { pose proof (DayFromYear_range yr Hy) as [Hlo Hhi].
    rewrite DayFromYear_succ in Hhi.
    unfold Date.DaysInMonth in Hdt. subst day.
    assert (Hm : mo = 0 \/ mo = 1 \/ mo = 2 \/ mo = 3 \/ mo = 4 \/ mo = 5
                 \/ mo = 6 \/ mo = 7 \/ mo = 8 \/ mo = 9 \/ mo = 10 \/ mo = 11)
      by lia.
    destruct (DaysInYear_cases yr) as [Hd | Hd]; rewrite Hd in *; simpl in *;
      repeat destruct Hm as [-> | Hm]; try subst mo; simpl in *; lia. }
  exists (ES.UTC H (day * ES.msPerDay + 0)).
  assert (Hclip : Z.abs (day * ES.msPerDay + 0) <= ES.maxTime - ES.msPerDay)
    by (unfold ES.maxTime, ES.msPerDay; lia).
  split.
  { unfold Date.of_fields. rewrite Hfull.
    unfold ES.MakeDay, ES.MakeTime, ES.MakeDate. simpl.
    rewrite (Z.div_small mo 12), (Z.mod_small mo 12), (Z.add_0_r yr) by lia.
    fold day.
    change (0 * ES.msPerHour + 0 * ES.msPerMinute + 0 * ES.msPerSecond + 0)
      with 0.
    exact (TimeClip_UTC _ Hclip). }
  rewrite LocalTime_UTC. split; [|done].
  unfold ES.UTC, ES.LocalTZA, ES.maxTime, ES.msPerDay, ES.msPerMinute in *. lia.
Qed.

Lemma fromDateTupleAndTime_local now y yr m d :
  ES.MakeFullYear (Int y) = Int yr ->
  -271820 <= yr <= 275759 ->
  1 <= m <= 12 -> 1 <= d <= Date.DaysInMonth yr m ->
  (inst ← fromDateTupleAndTime H now (Int y, Int m, Int d) None;
   inr (toDateTuple H inst)) = inr (Int yr, Int m, Int d).
Proof using Hzone.
  intros Hfull Hy Hm Hd.
  destruct (of_fields_local y yr (m - 1) d Hfull Hy ltac:(lia)
              ltac:(replace (m - 1 + 1) with m by lia; done))
    as (t & Hof & Ht & Hyear & Hmonth & Hdate).
  unfold fromDateTupleAndTime.
  change (num_minus (Int m) (Int 1)) with (Int (m + - 1)).
  replace (m + - 1) with (m - 1) by lia.
  change (nullish (None ≫= Types.hour) (Int 0)) with (Int 0).
  change (nullish (None ≫= Types.minute) (Int 0)) with (Int 0).
  rewrite Hof. change (Date.getTime (Some t)) with (Int t).
  rewrite (new_DateHelper_of_time now t Ht).
  unfold mbind, result_bind, toDateTuple, Date.getFullYear, Date.getMonth,
    Date.getDate, Date.local_field.
  simpl. rewrite Hyear, Hmonth, Hdate.
  replace (m - 1 + 1) with m by lia. reflexivity.
Qed.

(** A year of one or two digits lands in the twentieth century. *)
Lemma fromDateTupleAndTime_short_year now y m d :
  0 <= y <= 99 -> 1 <= m <= 12 -> 1 <= d <= Date.DaysInMonth (1900 + y) m ->
  (inst ← fromDateTupleAndTime H now (Int y, Int m, Int d) None;
   inr (toDateTuple H inst)) = inr (Int (1900 + y), Int m, Int d).
Proof using Hzone.
  intros Hy Hm Hd. apply fromDateTupleAndTime_local; [|lia|done|done].
  unfold ES.MakeFullYear, ToInteger. case_bool; try lia; done.
Qed.

Lemma parse_2024_03_01 :
  Date.parse H "2024-03-01T00:00:00" = Int (ES.UTC H 1709251200000).
Proof using Hzone.
  unfold Date.parse.
  replace (Date.date_time_fields "2024-03-01T00:00:00")
    with (Some (2024, 3, 1, 0, 0, 0)) by (vm_compute; reflexivity).
  replace (ES.MakeDate _ _) with (Some 1709251200000) by (vm_compute; reflexivity).
  replace (_ && _) with true by (vm_compute; reflexivity).
  rewrite TimeClip_UTC by (vm_compute; discriminate). reflexivity.
Qed.

Lemma new_DateHelper_2024_03_01 now l bd :
  new_DateHelper H now (Some (VStr "2024-03-01T00:00:00")) (config_of l bd) =
  inr (configured (Some (ES.UTC H 1709251200000)) (config_of l bd)).
Proof using Hzone.
  unfold new_DateHelper.
  replace (ToNumber H (VStr "2024-03-01T00:00:00")) with NaN
    by (vm_compute; reflexivity).
  change (ToString H (VStr ?s)) with s.
  rewrite parse_2024_03_01. cbn [isNaN].
  unfold Date.of_number. rewrite TimeClip_UTC by (vm_compute; discriminate).
  reflexivity.
Qed.

End Zone.

(** ** C1: the display date of 1 March 2024 *)

(** C1.  An instance built from the local date-time "2024-03-01T00:00:00"
    displays "01 March 2024" under the default configuration, "01 March 2567"
    with the Buddhist Era, and "01 มีนาคม 2567" in Thai with the Buddhist Era;
    the Buddhist Era year of any instance is its Gregorian year plus 543. *)
Theorem getDisplayDate_2024_03_01 (H : Host) (now : Z) :
  -1440 < tzMinutes H < 1440 ->
  (d ← new_DateHelper H now (Some (VStr "2024-03-01T00:00:00"))
         (config_of None None);
   inr (getDisplayDate H d)) = inr "01 March 2024"
  /\ (d ← new_DateHelper H now (Some (VStr "2024-03-01T00:00:00"))
            (config_of None (Some true));
      inr (getDisplayDate H d)) = inr "01 March 2567"
  /\ (d ← new_DateHelper H now (Some (VStr "2024-03-01T00:00:00"))
            (config_of (Some Types.lang_th) (Some true));
      inr (getDisplayDate H d)) = inr "01 มีนาคม 2567"
  /\ (forall self, getBDYear H self = num_plus (getADYear H self) (Int 543)).
Proof.
  intros Hzone. rewrite !new_DateHelper_2024_03_01 by done.
  unfold mbind, result_bind, getDisplayDate, getBDYear, getADYear, getMonthName,
    Date.getDate, Date.getFullYear, Date.getMonth, Date.local_field, configured.
  cbn [date]. rewrite !LocalTime_UTC.
  repeat split; vm_compute; reflexivity.
Qed.

Lemma getDisplayDate_2024_03_01_bangkok :
  (d ← new_DateHelper bangkok 0 (Some (VStr "2024-03-01T00:00:00"))
         (config_of None None);
   inr (getDisplayDate bangkok d)) = inr "01 March 2024".
Proof.
  apply (getDisplayDate_2024_03_01 bangkok 0). simpl. lia.
Defined.

(** ** C4: from a date tuple and back *)




(** The constant offset is needed.  Apia left UTC-10:00 for UTC+14:00 at
    10:00 UTC on 30 December 2011, and had no 30 December that year.  The
    host takes a local time that was skipped with the offset before the
    change: the midnight of [2011, 12, 30] is the instant of the change, and
    read with the offset after the change it is the midnight of
    31 December. *)
Lemma skipped_day_in_Apia :
  Date.of_fields (with_zone (-600) bangkok)
    (Int 2011) (Int 11) (Int 30) (Int 0) (Int 0) = Some 1325239200000
  /\ toDateTuple (with_zone 840 bangkok) (instant 1325239200000)
     = (Int 2011, Int 12, Int 31).
Proof. split; vm_compute; reflexivity. Qed.

(** ** C2: the days of a month *)

Lemma rem_zero (y k : Z) : 0 < k -> (Z.rem y k =? 0) = (y mod k =? 0).
Proof.
  intros Hk.
  destruct (Z.eqb_spec (Z.rem y k) 0) as [Hr | Hr],
           (Z.eqb_spec (y mod k) 0) as [Hm | Hm]; try done; exfalso.
  - apply Z.rem_divide in Hr; [|lia]. apply Z.mod_divide in Hr; lia.
  - apply Z.mod_divide in Hm; [|lia]. apply Z.rem_divide in Hm; lia.
Qed.

Lemma isLeapYear_rule (y : Z) :
  (y mod 4 =? 0) && negb (y mod 100 =? 0) || (y mod 400 =? 0) = leap_rule y.
Proof. unfold leap_rule. case_bool; try done; div_lia. Qed.

(** The host's leap years are those of the rule. *)
Lemma DaysInYear_leap_rule (y : Z) : (ES.DaysInYear y =? 366) = leap_rule y.
Proof. unfold ES.DaysInYear, leap_rule. case_bool; try done; div_lia. Qed.

Lemma getDaysCountInMonth_valid (H : Host) (self : DateHelper) (t : Z) :
  date self = Some t ->
  getDaysCountInMonth H self =
    let y := ES.YearFromTime (ES.LocalTime H t) in
    let m := ES.MonthFromTime (ES.LocalTime H t) + 1 in
    if m =? 2 then (if leap_rule y then 29 else 28)
    else if (m =? 4) || (m =? 6) || (m =? 9) || (m =? 11) then 30
    else 31.
Proof.
  intros Ht. unfold getDaysCountInMonth, toDateTuple, Date.getFullYear,
    Date.getMonth, Date.getDate, Date.local_field, includes.
  rewrite Ht. cbn [num_plus num_rem existsb isNaN andb orb Z.eqb].
  rewrite !num_eq_Int, !rem_zero, isLeapYear_rule by lia.
  rewrite !orb_false_r, !orb_assoc. reflexivity.
Qed.

(** C2.  [getDaysCountInMonth] gives, for February, 29 when the local year is
    divisible by 4 and (not divisible by 100 or divisible by 400) and 28
    otherwise, 30 for the months 4, 6, 9 and 11, and 31 for any other month
    (an invalid Date, which has no month, included): 29 in February 2000 and
    2024, 28 in February 1900 and 2023. *)
Theorem getDaysCountInMonth_rule (H : Host) (self : DateHelper) :
  match date self with
  | Some t =>
      let y := ES.YearFromTime (ES.LocalTime H t) in
      let m := ES.MonthFromTime (ES.LocalTime H t) + 1 in
      getDaysCountInMonth H self =
        if m =? 2 then (if leap_rule y then 29 else 28)
        else if (m =? 4) || (m =? 6) || (m =? 9) || (m =? 11) then 30
        else 31
  | None => getDaysCountInMonth H self = 31
  end
  /\ getDaysCountInMonth H (instant (local_midnight H 2000 2 1)) = 29
  /\ getDaysCountInMonth H (instant (local_midnight H 1900 2 1)) = 28
  /\ getDaysCountInMonth H (instant (local_midnight H 2024 2 1)) = 29
  /\ getDaysCountInMonth H (instant (local_midnight H 2023 2 1)) = 28.
Proof.
  split.
  { destruct (date self) as [t|] eqn:Ht.
    - by apply getDaysCountInMonth_valid.
    - unfold getDaysCountInMonth, toDateTuple. rewrite Ht. reflexivity. }
  repeat split;
    (erewrite getDaysCountInMonth_valid by reflexivity;
     unfold local_midnight; rewrite LocalTime_UTC; vm_compute; reflexivity).
Qed.

(** ** C3: the time of a time string *)

(** C3, at the code's fault.  With [h] and [m] the first two segments of the
    string between colons, coerced to numbers (a missing segment gives NaN, an
    empty one 0), [timeStringToTime] fails exactly when [h] or [m] is NaN,
    [h] is outside 0..23 or [m] is outside 0..59, and otherwise returns a
    Time whose hour is [h] and whose minute is [m], neither null.  What a
    failure throws is not the FormatError the code names: index.ts does not
    bind that name, and both the [throw] of the body and the [throw] of the
    [catch] end in a ReferenceError.  "13:45" gives hour 13 and minute 45;
    "24:00" and "12:60" throw the ReferenceError; ":30" is accepted as hour 0
    and minute 30. *)
Theorem timeStringToTime_ReferenceError (H : Host) (timeString : string) :
  let h := coerce H (split ":" timeString !! 0%nat) in
  let m := coerce H (split ":" timeString !! 1%nat) in
  is_error (timeStringToTime H timeString)
    = isNaN h || isNaN m || negb (between 0 h 23) || negb (between 0 m 59)
  /\ match timeStringToTime H timeString with
     | inl e =>
         e = ReferenceError "FormatError"
         /\ forall message, e <> FormatError message
     | inr time => Types.hour time = Some h /\ Types.minute time = Some m
     end
  /\ timeStringToTime H "13:45"
     = inr {| Types.hour := Some (Int 13); Types.minute := Some (Int 45) |}
  /\ timeStringToTime H "24:00" = inl (ReferenceError "FormatError")
  /\ timeStringToTime H "12:60" = inl (ReferenceError "FormatError")
  /\ timeStringToTime H ":30"
     = inr {| Types.hour := Some (Int 0); Types.minute := Some (Int 30) |}.
Proof.
  intros h m. split; [|split; [|repeat split; vm_compute; reflexivity]].
  - unfold timeStringToTime. cbv zeta. fold h m.
    destruct (isNaN h) eqn:Hh; [reflexivity|].
    destruct (isNaN m) eqn:Hm; [reflexivity|].
    rewrite !out_of_range by done. cbn [orb].
    destruct (between 0 h 23); [|reflexivity].
    destruct (between 0 m 59); reflexivity.
  - unfold timeStringToTime. cbv zeta. fold h m.
    destruct (isNaN h || isNaN m); [by split|].
    destruct (num_lt h (Int 0) || num_gt h (Int 23)); [by split|].
    destruct (num_lt m (Int 0) || num_gt m (Int 59)); [by split|].
    done.
Qed.

(** ** C5: the difference in minutes *)

(** *** The two roundings *)

Lemma nearest_even_bound (n d : Z) :
  0 < d -> 2 * Z.abs (d * nearest_even n d - n) <= d.
Proof.
  intros Hd. unfold nearest_even. cbv zeta.
  destruct (Z.ltb_spec (2 * (n mod d)) d);
    [|destruct (Z.ltb_spec d (2 * (n mod d)));
      [|destruct (Z.even (n / d))]]; div_lia.
Qed.

Lemma Qred_inject_Z (z : Z) : Qred (inject_Z z) = inject_Z z.
Proof.
  unfold Qred, inject_Z.
  pose proof (Z.ggcd_gcd z 1) as Hg.
  pose proof (Z.ggcd_correct_divisors z 1) as Hd.
  destruct (Z.ggcd z 1) as [g [r1 r2]]. simpl in *.
  rewrite Z.gcd_1_r in Hg. subst g. destruct Hd as [-> Hr2].
  replace r2 with 1 by lia. f_equal. lia.
Qed.

Lemma of_Q_integer (q : Q) (z : Z) : (q == inject_Z z)%Q -> of_Q q = Int z.
Proof.
  intros Hq. unfold of_Q. cbv zeta.
  rewrite (Qred_complete _ _ Hq), Qred_inject_Z. reflexivity.
Qed.

(** [Math.round] of a rational does not depend on how it is written. *)
Lemma Math_round_of_Q (q : Q) :
  Math_round (of_Q q) = Int (Qfloor (q + (1 # 2))).
Proof.
  unfold of_Q. cbv zeta.
  assert (Hq : Qfloor (q + (1 # 2)) = Qfloor (Qred q + (1 # 2))).
  { apply Qfloor_comp. rewrite Qred_correct. reflexivity. }
  rewrite Hq. destruct (Qred q) as [n d]. simpl Qden. simpl Qnum.
  destruct (Pos.eqb_spec d 1) as [->|_]; [|reflexivity].
  simpl. f_equal. unfold Qfloor, Qplus. simpl. div_lia.
Qed.

Lemma binade_integer (z : Z) : z <> 0 -> binade z 1 = Z.log2 (Z.abs z).
Proof.
  intros Hz. unfold binade. cbv zeta. change (Z.log2 1) with 0.
  rewrite Z.sub_0_r.
  pose proof (Z.log2_nonneg (Z.abs z)).
  pose proof (Z.log2_spec (Z.abs z) ltac:(lia)).
  destruct (Z.leb_spec 0 (Z.log2 (Z.abs z))); [|lia].
  destruct (Z.leb_spec (2 ^ Z.log2 (Z.abs z) * 1) (Z.abs z)); lia.
Qed.

Lemma log2_below_2_53 (z : Z) :
  z <> 0 -> Z.abs z < 2 ^ 53 -> Z.log2 (Z.abs z) <= 52.
Proof.
  intros Hz Hlt.
  assert (Z.log2 (Z.abs z) < 53); [|lia].
  apply Z.log2_lt_pow2; lia.
Qed.

(** Below 2^53 the difference of two integers is a double: no rounding. *)
Lemma double_minus_exact (x y : Z) :
  Z.abs (x - y) < 2 ^ 53 -> double_minus (Int x) (Int y) = Int (x - y).
Proof.
  intros Hlt. cbn [double_minus]. apply of_Q_integer.
  unfold to_double. destruct (Z.eqb_spec (x - y) 0) as [->|Hz]; [reflexivity|].
  cbv zeta. rewrite binade_integer by done.
  pose proof (log2_below_2_53 _ Hz Hlt).
  destruct (Z.leb_spec 0 (52 - Z.log2 (Z.abs (x - y)))); [|lia].
  assert (0 < 2 ^ (52 - Z.log2 (Z.abs (x - y)))) by (apply Z.pow_pos_nonneg; lia).
  unfold nearest_even. cbv zeta. rewrite Z.mod_1_r, Z.div_1_r. simpl (2 * 0 <? 1).
  cbv iota. unfold Qeq. simpl. rewrite Z2Pos.id by lia. lia.
Qed.

Lemma binade_minutes (z : Z) :
  z <> 0 -> Z.abs z < 2 ^ 53 -> binade z 60000 <= 37.
Proof.
  intros Hz Hlt. unfold binade. cbv zeta. change (Z.log2 60000) with 15.
  pose proof (log2_below_2_53 _ Hz Hlt).
  destruct (if 0 <=? _ then _ else _); lia.
Qed.

(** A quotient [x / 60000] is a half-integer or at least 1/60000 away from
    one; a significand [m] over [2 * P'], with [P'] at least 2^14, is closer
    to the quotient than that, so both round to the same integer. *)
Lemma round_minutes (m x P' K : Z) :
  16384 <= P' ->
  2 * Z.abs (60000 * m - x * (2 * P')) <= 60000 ->
  K = (2 * x + 60000) / 120000 ->
  (2 * m + 2 * P') / (2 * (2 * P')) = K.
Proof.
  intros HP Hm HK.
  assert (H1 : 60000 * (2 * K - 1) <= 2 * x /\ 2 * x + 2 <= 60000 * (2 * K + 1))
    by (subst K; div_lia).
  destruct H1 as [Hlo Hhi].
  assert (Hlo' : 60000 * (2 * K - 1) * P' <= 2 * x * P') by nia.
  assert (Hhi' : (2 * x + 2) * P' <= 60000 * (2 * K + 1) * P') by nia.
  symmetry. apply (Z.div_unique _ _ _ (2 * m + 2 * P' - 2 * (2 * P') * K)); lia.
Qed.

(** Below 2^53 the rounding of the quotient to a double does not change what
    [Math.round] makes of it. *)
Lemma Math_round_double_div (z : Z) :
  Z.abs z < 2 ^ 53 ->
  Math_round (double_div (Int z) 60000) = Int ((2 * z + 60000) / 120000).
Proof.
  intros Hlt. cbn [double_div]. rewrite Math_round_of_Q. f_equal.
  unfold to_double. destruct (Z.eqb_spec z 0) as [->|Hz]; [reflexivity|].
  cbv zeta. pose proof (binade_minutes z Hz Hlt) as Hb.
  destruct (Z.leb_spec 0 (52 - binade z 60000)); [|lia].
  set (s := 52 - binade z 60000) in *.
  assert (Hs : 2 ^ s = 2 * 2 ^ (s - 1)).
  { rewrite <- Z.pow_succ_r by lia. f_equal. lia. }
  assert (HP : 16384 <= 2 ^ (s - 1)).
  { change 16384 with (2 ^ 14). apply Z.pow_le_mono_r; lia. }
  pose proof (nearest_even_bound (z * 2 ^ s) 60000 ltac:(lia)) as Hm.
  set (m := nearest_even (z * 2 ^ s) 60000) in *.
  unfold Qfloor, Qplus. cbn [Qnum Qden].
  rewrite Pos2Z.inj_mul, Z2Pos.id by lia.
  rewrite Hs in *.
  replace (m * 2 + 1 * (2 * 2 ^ (s - 1))) with (2 * m + 2 * 2 ^ (s - 1)) by lia.
  replace (2 * 2 ^ (s - 1) * 2) with (2 * (2 * 2 ^ (s - 1))) by lia.
  apply round_minutes with (x := z); [done| |done].
  lia.
Qed.

Lemma deltaMinutes_below_2_53 (a b : DateHelper) (ta tb : Z) :
  date a = Some ta -> date b = Some tb -> Z.abs (ta - tb) < 2 ^ 53 ->
  deltaMinutes a b = Int ((2 * (ta - tb) + 60000) / 120000).
Proof.
  intros Ha Hb Hlt. unfold deltaMinutes. rewrite Ha, Hb. cbn [Date.getTime].
  cbv zeta. rewrite double_minus_exact by done.
  apply Math_round_double_div, Hlt.
Qed.

(** *** The claim *)

(** C5, as the code has it.  For two valid instants less than 2^53
    milliseconds apart, where the host's subtraction is exact,
    [deltaMinutes a b] is floor((a - b + 30000) / 60000) for the difference
    [a - b] in milliseconds: a whole number of minutes nearest to the
    difference and of its sign, half a minute going toward +Infinity (a
    difference of 60000 k + 30000 gives k + 1); [deltaMinutes a a] is 0; and
    [deltaMinutes a b] is the opposite of [deltaMinutes b a] unless the
    difference is an odd number of half minutes, which goes toward +Infinity
    both ways. *)
Theorem deltaMinutes_nearest_minute (a b : DateHelper) (ta tb : Z) :
  date a = Some ta -> date b = Some tb ->
  Z.abs (ta - tb) < 2 ^ 53 ->
  deltaMinutes a b = Int ((ta - tb + 30000) / 60000)
  /\ (exists n, deltaMinutes a b = Int n
        /\ 2 * Z.abs (60000 * n - (ta - tb)) <= 60000
        /\ (0 <= ta - tb -> 0 <= n) /\ (ta - tb <= 0 -> n <= 0))
  /\ (forall k, ta - tb = 60000 * k + 30000 -> deltaMinutes a b = Int (k + 1))
  /\ deltaMinutes a a = Int 0
  /\ ((ta - tb) mod 60000 <> 30000 ->
      deltaMinutes a b = num_opp (deltaMinutes b a)).
Proof.
  intros Ha Hb Hlt.
  rewrite (deltaMinutes_below_2_53 a b ta tb),
    (deltaMinutes_below_2_53 b a tb ta),
    (deltaMinutes_below_2_53 a a ta ta) by (done || lia).
  split; [|split; [|split; [|split]]].
  - f_equal. div_lia.
  - eexists. split; [reflexivity|]. div_lia.
  - intros k Hk. f_equal. div_lia.
  - replace (2 * (ta - ta) + 60000) with 60000 by lia. reflexivity.
  - intros Hodd. cbn [num_opp]. f_equal. div_lia.
Qed.

Lemma deltaMinutes_nearest_minute_example :
  deltaMinutes (instant 90000) (instant 0) = Int 2
  /\ deltaMinutes (instant 0) (instant 90001) = Int (-2)
  /\ deltaMinutes (instant 90001) (instant 0)
     = num_opp (deltaMinutes (instant 0) (instant 90001)).
Proof.
  pose proof (deltaMinutes_nearest_minute (instant 90001) (instant 0) 90001 0
                eq_refl eq_refl eq_refl) as (_ & _ & _ & _ & Hopp).
  split; [vm_compute; reflexivity|]. split; [vm_compute; reflexivity|].
  apply Hopp. vm_compute. discriminate.
Defined.

(** Half a minute apart: 1 one way, 0 and not -1 the other way. *)
Lemma deltaMinutes_half_minute :
  deltaMinutes (instant 30000) (instant 0) = Int 1
  /\ deltaMinutes (instant 0) (instant 30000) = Int 0
  /\ deltaMinutes (instant 30000) (instant 0)
     <> num_opp (deltaMinutes (instant 0) (instant 30000)).
Proof. vm_compute. intuition discriminate. Qed.

(** From 2^53 on the subtraction itself rounds.  The last instant of a Date
    and one 9007199254829999 ms before it: the difference becomes
    9007199254830000, a half minute exactly, and the result is 30001 ms away
    from the difference one way and not the opposite the other way, though
    the difference is no odd number of half minutes. *)
Lemma deltaMinutes_beyond_2_53 :
  double_minus (Int 8640000000000000) (Int (-367199254829999))
  = Int 9007199254830000
  /\ deltaMinutes (instant 8640000000000000) (instant (-367199254829999))
     = Int 150119987581
  /\ deltaMinutes (instant (-367199254829999)) (instant 8640000000000000)
     = Int (-150119987580)
  /\ 60000 * 150119987581 - (8640000000000000 - -367199254829999) = 30001
  /\ (8640000000000000 - -367199254829999) mod 60000 = 29999.
Proof. repeat split; vm_compute; reflexivity. Qed.

(** ** C6: the time relative to now *)

Lemma english_phrases (H : Host) :
  Constants.minute (Constants.timeAgo (Constants.en H)) (Int 59) = "59 minutes ago"
  /\ Constants.hour (Constants.timeAgo (Constants.en H)) (Int (60 / 60)) = "1 hour ago"
  /\ Constants.hour (Constants.timeAgo (Constants.en H)) (Int (1439 / 60)) = "23 hours ago"
  /\ Constants.day (Constants.timeAgo (Constants.en H)) (Int (1440 / 1440)) = "1 day ago".
Proof. repeat split; vm_compute; reflexivity. Qed.

(** C6.  With [delta] the whole minutes from the instance to now,
    [getTimeRelativeToNow] gives the "just now" phrase of the language when
    [delta < 1], its minutes phrase when [delta < 60], its hours phrase for
    floor(delta / 60) when [delta < 1440], its days phrase for
    floor(delta / 1440) when [delta < 43200], and [getDisplayDate] otherwise;
    in English 59 gives "59 minutes ago", 60 "1 hour ago", 1439 "23 hours ago"
    and 1440 "1 day ago". *)
Theorem getTimeRelativeToNow_cases (H : Host) (now : Z) (self : DateHelper) :
  let delta := deltaMinutes (instant now) self in
  let timeAgo := Constants.timeAgo (getLanguageConstants H self) in
  (forall n, delta = Int n ->
     (n < 1 ->
      getTimeRelativeToNow H now self = inr (Constants.justNow timeAgo))
     /\ (1 <= n < 60 ->
         getTimeRelativeToNow H now self = inr (Constants.minute timeAgo (Int n)))
     /\ (60 <= n < 1440 ->
         getTimeRelativeToNow H now self
         = inr (Constants.hour timeAgo (Int (n / 60))))
     /\ (1440 <= n < 43200 ->
         getTimeRelativeToNow H now self
         = inr (Constants.day timeAgo (Int (n / 1440))))
     /\ (43200 <= n ->
         getTimeRelativeToNow H now self = inr (getDisplayDate H self)))
  /\ (delta = NaN ->
      getTimeRelativeToNow H now self = inr (getDisplayDate H self))
  /\ (defaultLang self = Types.lang_en ->
      (delta = Int 59 ->
       getTimeRelativeToNow H now self = inr "59 minutes ago")
      /\ (delta = Int 60 ->
          getTimeRelativeToNow H now self = inr "1 hour ago")
      /\ (delta = Int 1439 ->
          getTimeRelativeToNow H now self = inr "23 hours ago")
      /\ (delta = Int 1440 ->
          getTimeRelativeToNow H now self = inr "1 day ago")).
Proof.
  intros delta timeAgo.
  assert (Hrun : getTimeRelativeToNow H now self =
    if num_lt delta (Int 1) then inr (Constants.justNow timeAgo)
    else if num_lt delta (Int 60) then inr (Constants.minute timeAgo delta)
    else if num_lt delta (Int 1440)
         then inr (Constants.hour timeAgo (Math_floor_div delta 60))
    else if num_lt delta (Int 43200)
         then inr (Constants.day timeAgo (Math_floor_div delta 1440))
    else inr (getDisplayDate H self)) by reflexivity.
  assert (Hcases : forall n, delta = Int n ->
     (n < 1 ->
      getTimeRelativeToNow H now self = inr (Constants.justNow timeAgo))
     /\ (1 <= n < 60 ->
         getTimeRelativeToNow H now self = inr (Constants.minute timeAgo (Int n)))
     /\ (60 <= n < 1440 ->
         getTimeRelativeToNow H now self
         = inr (Constants.hour timeAgo (Int (n / 60))))
     /\ (1440 <= n < 43200 ->
         getTimeRelativeToNow H now self
         = inr (Constants.day timeAgo (Int (n / 1440))))
     /\ (43200 <= n ->
         getTimeRelativeToNow H now self = inr (getDisplayDate H self))).
  { intros n Hn. rewrite Hrun, Hn, !num_lt_Int. cbn [Math_floor_div].
    repeat split; intros; case_bool; try lia; reflexivity. }
  split; [exact Hcases|]. split.
  - intros Hnan. rewrite Hrun, Hnan. reflexivity.
  - intros Hen. subst timeAgo. unfold getLanguageConstants in Hcases.
    rewrite Hen in Hcases.
    destruct (english_phrases H) as (E1 & E2 & E3 & E4).
    repeat split; intros Hd.
    + destruct (Hcases 59 Hd) as (_ & Hc & _). rewrite Hc, E1 by lia. done.
    + destruct (Hcases 60 Hd) as (_ & _ & Hc & _). rewrite Hc, E2 by lia. done.
    + destruct (Hcases 1439 Hd) as (_ & _ & Hc & _). rewrite Hc, E3 by lia. done.
    + destruct (Hcases 1440 Hd) as (_ & _ & _ & Hc & _). rewrite Hc, E4 by lia. done.
Qed.

Lemma getTimeRelativeToNow_59_minutes :
  getTimeRelativeToNow bangkok 3540000 (instant 0) = inr "59 minutes ago".
Proof.
  apply (getTimeRelativeToNow_cases bangkok 3540000 (instant 0)); reflexivity.
Defined.

(** ** C7: zero padding *)

Lemma num_ge_not_lt (n : number) (k : Z) :
  isNaN n = false -> num_ge n (Int k) = negb (num_lt n (Int k)).
Proof.
  intros Hn. unfold num_ge, num_lt.
  destruct (num_compare_is_Some n (Int k) Hn eq_refl) as [c ->].
  destruct c; reflexivity.
Qed.

Lemma num_lt_NaN (n : number) (k : Z) : isNaN n = true -> num_lt n (Int k) = false.
Proof. destruct n; done. Qed.

Lemma padded_neq (H : Host) (num : value) :
  VStr ("0" +:+ ToString H num) <> num.
Proof.
  destruct num as [n | s]; [discriminate|].
  intros [= Heq]. by apply (append_neq "0" s).
Qed.

Lemma between_lt (n : number) (lo hi : Z) :
  between lo n hi = true -> num_lt n (Int (hi + 1)) = true.
Proof.
  unfold between, num_ge, num_lt. intros [_ Hhi]%andb_true_iff. revert Hhi.
  destruct n as [|z|q|[]]; simpl; try done.
  - destruct (Z.compare_spec hi z), (Z.compare_spec z (hi + 1)); try done;
      intros _; exfalso; lia.
  - destruct (Qcompare_spec (inject_Z hi) q) as [Heq | Hlt | Hgt],
             (Qcompare_spec q (inject_Z (hi + 1))) as [Heq' | Hlt' | Hgt'];
      try done; intros _; exfalso;
      unfold Qeq, Qlt in *; simpl in *; nia.
Qed.

(** C7, as the code has it.  [padZero] puts one "0" before the text of its
    input exactly when the input's numeric value is below 10, negative values
    included, and returns the input as it received it exactly when the value
    is NaN or at least 10; so it pads every value from 0 to 9, and passes a
    non-numeric input through. *)
Theorem padZero_pads_below_ten (H : Host) (num : value) :
  let n := ToNumber H num in
  (padZero H num = VStr ("0" +:+ ToString H num) <-> num_lt n (Int 10) = true)
  /\ (padZero H num = num <-> num_lt n (Int 10) = false)
  /\ (between 0 n 9 = true -> padZero H num = VStr ("0" +:+ ToString H num))
  /\ (isNaN n = true -> padZero H num = num).
Proof.
  intros n.
  assert (Hrun : padZero H num =
    if num_lt n (Int 10) then VStr ("0" +:+ ToString H num) else num).
  { unfold padZero. fold n. destruct (isNaN n) eqn:Hn.
    - by rewrite num_lt_NaN.
    - rewrite num_ge_not_lt by done. by destruct (num_lt n (Int 10)). }
  pose proof (padded_neq H num) as Hneq.
  rewrite Hrun. repeat split.
  - destruct (num_lt n (Int 10)); [done|]. intros Heq. by destruct Hneq.
  - by intros ->.
  - destruct (num_lt n (Int 10)); [|done]. intros Heq. by destruct Hneq.
  - by intros ->.
  - intros Hb. pose proof (between_lt n 0 9 Hb) as Hlt.
    change (9 + 1) with 10 in Hlt. by rewrite Hlt.
  - intros Hn. by rewrite num_lt_NaN.
Qed.

(** The number -5 is not between 0 and 9, and is padded. *)
Lemma padZero_negative :
  between 0 (ToNumber bangkok (VNum (Int (-5)))) 9 = false
  /\ padZero bangkok (VNum (Int (-5))) = VStr "0-5"
  /\ padZero bangkok (VNum (Int (-5))) <> VNum (Int (-5)).
Proof. vm_compute. intuition discriminate. Qed.

(** ** C8: the display time *)

Lemma padZero_two_digits (H : Host) (n : Z) :
  0 <= n <= 99 -> ToString H (padZero H (VNum (Int n))) = two_digits n.
Proof.
  intros Hn.
  assert (Hall : forallb (fun k =>
            String.eqb (ToString H (padZero H (VNum (Int (Z.of_nat k)))))
                       (two_digits (Z.of_nat k))) (seq 0 100) = true)
    by (vm_compute; reflexivity).
  rewrite forallb_forall in Hall.
  specialize (Hall (Z.to_nat n)). rewrite Z2Nat.id in Hall by lia.
  apply String.eqb_eq, Hall, in_seq. lia.
Qed.

Lemma truthy_Int (z : Z) : truthy (Int z) = negb (z =? 0).
Proof. by destruct z. Qed.

Lemma time_fields_range (t : Z) :
  0 <= ES.HourFromTime t < 24 /\ 0 <= ES.MinFromTime t < 60
  /\ 0 <= ES.SecFromTime t < 60.
Proof.
  unfold ES.HourFromTime, ES.MinFromTime, ES.SecFromTime.
  repeat split; apply Z.mod_pos_bound; lia.
Qed.

Lemma hour12_range (h : Z) : 1 <= hour12 h <= 12.
Proof. unfold hour12. case_bool; div_lia. Qed.

(** The hour shown by a twelve-hour clock. *)
Lemma hour12_code (h : Z) :
  0 <= h ->
  (if truthy (num_rem (Int h) 12) then num_rem (Int h) 12 else Int 12)
  = Int (hour12 h).
Proof.
  intros Hh. unfold hour12. cbn [num_rem Z.eqb].
  rewrite truthy_Int, Z.rem_mod_nonneg by lia. by case_bool.
Qed.

(** C8.  For a valid Date with local hour [h], minute [m] and second [s],
    [getDisplayTime] is the hour, ":" and the minute, each in two digits, then
    ":" and the two-digit second exactly when [showSeconds] is set, then " AM"
    or " PM" exactly when [use12HourFormat] is set; the hour is [h] on the
    24-hour clock and, on the 12-hour clock, its remainder by 12 with 12 in
    place of 0, so that 00:xx and 12:xx both show "12:".  An invalid Date
    shows NaN in place of its fields, under the same composition. *)
Theorem getDisplayTime_format (H : Host) (self : DateHelper) :
  match date self with
  | Some t =>
      let h := ES.HourFromTime (ES.LocalTime H t) in
      let m := ES.MinFromTime (ES.LocalTime H t) in
      let s := ES.SecFromTime (ES.LocalTime H t) in
      getDisplayTime H self =
        two_digits (if use12HourFormat self then hour12 h else h)
        +:+ ":" +:+ two_digits m
        +:+ (if showSeconds self then ":" +:+ two_digits s else "")
        +:+ (if use12HourFormat self
             then (if 12 <=? h then " PM" else " AM") else "")
      /\ 1 <= hour12 h <= 12
      /\ (use12HourFormat self = true -> h = 0 \/ h = 12 ->
          exists rest, getDisplayTime H self = "12:" +:+ rest)
  | None =>
      getDisplayTime H self =
        (if use12HourFormat self then "12" else "NaN")
        +:+ ":" +:+ "NaN"
        +:+ (if showSeconds self then ":" +:+ "NaN" else "")
        +:+ (if use12HourFormat self then " AM" else "")
  end.
Proof.
  destruct (date self) as [t|] eqn:Ht.
  - intros h m s.
    destruct (time_fields_range (ES.LocalTime H t)) as (Hh & Hm & Hs).
    fold h m s in Hh, Hm, Hs.
    pose proof (hour12_range h) as H12.
    assert (Hrun : getDisplayTime H self =
        two_digits (if use12HourFormat self then hour12 h else h)
        +:+ ":" +:+ two_digits m
        +:+ (if showSeconds self then ":" +:+ two_digits s else "")
        +:+ (if use12HourFormat self
             then (if 12 <=? h then " PM" else " AM") else "")).
    { unfold getDisplayTime, Date.getHours, Date.getMinutes, Date.getSeconds,
        Date.local_field.
      rewrite Ht. fold h m s. cbv zeta.
      rewrite num_ge_Int, hour12_code by lia.
      destruct (use12HourFormat self), (showSeconds self); cbn [negb];
        rewrite !padZero_two_digits by lia;
        rewrite ?append_assoc, ?append_empty_r; try reflexivity;
        destruct (12 <=? h); reflexivity. }
    split; [exact Hrun|]. split; [exact H12|].
    intros Huse Hnoon. rewrite Hrun, Huse.
    assert (Hh12 : hour12 h = 12) by (destruct Hnoon as [-> | ->]; reflexivity).
    rewrite Hh12. eexists. reflexivity.
  - unfold getDisplayTime, Date.getHours, Date.getMinutes, Date.getSeconds,
      Date.local_field.
    rewrite Ht.
    destruct (use12HourFormat self), (showSeconds self); vm_compute; reflexivity.
Qed.

(** ** C9: the constructor coerces its input to a number first *)

Lemma new_DateHelper_number (H : Host) (now : Z) (input : value)
    (config : Types.DateHelperConfig) :
  isNaN (ToNumber H input) = false ->
  Types.isUTC config <> Some true ->
  new_DateHelper H now (Some input) config
  = inr (configured (Date.of_number (ToNumber H input)) config).
Proof.
  intros Hts Hutc. unfold new_DateHelper. rewrite Hts.
  cbn [mbind result_bind].
  destruct (Types.isUTC config) as [[]|]; done.
Qed.

(** C9.  Given an input, the constructor coerces it to a number [ts].  When
    [ts] is not NaN the input is a count of milliseconds: the reader of date
    strings has no say in the result, which is the Date of [ts] (before the
    shift that [isUTC] asks for); so "2024" is the time value 2024.  When
    [ts] is NaN the input goes to [Date.parse], and construction throws
    exactly when that gives NaN too. *)
Theorem constructor_coerces_first (H : Host) (now : Z) (input : value)
    (config : Types.DateHelperConfig) :
  let ts := ToNumber H input in
  (isNaN ts = false ->
     (forall p, new_DateHelper (with_parser H p) now (Some input) config
                = new_DateHelper H now (Some input) config)
     /\ (Types.isUTC config <> Some true ->
         new_DateHelper H now (Some input) config
         = inr (configured (Date.of_number ts) config)))
  /\ is_error (new_DateHelper H now (Some input) config)
     = isNaN ts && isNaN (Date.parse H (ToString H input))
  /\ (is_error (new_DateHelper H now (Some input) config) = true ->
      new_DateHelper H now (Some input) config
      = inl (Error "Invalid date string or number provided."))
  /\ new_DateHelper H now (Some (VStr "2024")) Types.no_config
     = inr (instant 2024).
Proof.
  intros ts. split; [|split; [|split]].
  - intros Hts. split.
    + intros p. unfold new_DateHelper.
      change (ToNumber (with_parser H p) input) with ts.
      fold ts. rewrite Hts. reflexivity.
    + intros Hutc. by apply new_DateHelper_number.
  - unfold new_DateHelper. fold ts.
    destruct (isNaN ts); [|reflexivity].
    destruct (isNaN (Date.parse H (ToString H input))); reflexivity.
  - unfold new_DateHelper. fold ts.
    destruct (isNaN ts); [|discriminate].
    destruct (isNaN (Date.parse H (ToString H input))); [reflexivity|discriminate].
  - reflexivity.
Qed.

(** ** C10: [isTimePastForDate] leaves its date argument alone *)

(** C10.  In a store that holds the Date of the instance [arg],
    [isTimePastForDate time arg] leaves every Date of that store as it was,
    so that [arg.toMs()] is the same after the call as before.  When the call
    returns, the only change is a Date at a fresh address: that of the
    instance built from [arg.toMs()], with its hours then set to [time], which
    the call compares with now.  When the call throws, the store is
    unchanged. *)
Theorem isTimePastForDate_frame (H : Host) (now : Z) (time : Types.Time)
    (arg : DateHelperOf Store.loc) (σ : Store.store) :
  is_Some (σ !! Store.getDate arg) ->
  let r := Store.isTimePastForDate H now time (Some arg) σ in
  Store.toMs r.2 arg = Store.toMs σ arg
  /\ (forall l, l ∈ dom σ -> r.2 !! l = σ !! l)
  /\ match r.1 with
     | inr past =>
         exists l cmp,
           (l ∉ dom σ)
           /\ new_DateHelper H now (Some (VNum (Store.toMs σ arg)))
                Types.no_config = inr cmp
           /\ let moment :=
                Date.setHours H (date cmp)
                  (nullish (Types.hour time) (Int 0))
                  (nullish (Types.minute time) (Int 0)) (Int 0) (Int 0) in
              r.2 = <[l := moment]> σ
              /\ past = num_gt (Int now) (Date.getTime moment)
     | inl _ => r.2 = σ
     end.
Proof.
  intros Halloc r.
  assert (Hshape : match r.1 with
                   | inr past =>
                       exists l cmp,
                         (l ∉ dom σ)
                         /\ new_DateHelper H now (Some (VNum (Store.toMs σ arg)))
                              Types.no_config = inr cmp
                         /\ let moment :=
                              Date.setHours H (date cmp)
                                (nullish (Types.hour time) (Int 0))
                                (nullish (Types.minute time) (Int 0))
                                (Int 0) (Int 0) in
                            r.2 = <[l := moment]> σ
                            /\ past = num_gt (Int now) (Date.getTime moment)
                   | inl _ => r.2 = σ
                   end).
  { subst r. unfold Store.isTimePastForDate, Store.new_DateHelper.
    destruct (new_DateHelper H now (Some (VNum (Store.toMs σ arg)))
                Types.no_config) as [e | c]; [reflexivity|].
    unfold Store.alloc, Store.Date_setHours, Store.getDate, Store.toMs.
    cbn [fst snd date].
    rewrite lookup_insert_eq, insert_insert_eq, lookup_insert_eq.
    exists (fresh (dom σ)), c. cbv zeta.
    split; [apply is_fresh|]. split; [reflexivity|]. split; reflexivity. }
  assert (Hframe : forall l, l ∈ dom σ -> r.2 !! l = σ !! l).
  { intros l Hl. destruct r.1; [by rewrite Hshape|].
    destruct Hshape as (l' & c & Hfresh & _ & -> & _).
    apply lookup_insert_ne. intros ->. done. }
  split; [|done].
  unfold Store.toMs. rewrite Hframe; [done|].
  by apply elem_of_dom.
Qed.

Lemma isTimePastForDate_frame_example :
  Store.toMs
    (Store.isTimePastForDate bangkok 1760684400000
       {| Types.hour := Some (Int 10); Types.minute := Some (Int 30) |}
       (Some (Store.alloc (instant 1760634000000) ∅).1)
       (Store.alloc (instant 1760634000000) ∅).2).2
    (Store.alloc (instant 1760634000000) ∅).1
  = Store.toMs (Store.alloc (instant 1760634000000) ∅).2
      (Store.alloc (instant 1760634000000) ∅).1.
Proof.
  apply (isTimePastForDate_frame bangkok 1760684400000
           {| Types.hour := Some (Int 10); Types.minute := Some (Int 30) |}
           (Store.alloc (instant 1760634000000) ∅).1
           (Store.alloc (instant 1760634000000) ∅).2).
  vm_compute. eexists. reflexivity.
Defined.
